(** * Fuel-Quote-Backend: account sessions, request validation and quotes

  A shallow embedding of the backend's controllers and middleware:

  - [Js]: the JSON values that travel in [req.body] and [res.json(...)],
    with JavaScript's truthiness and strict equality;
  - [AuthController]: controllers/authController.js, the in-memory
    credential list with [login], [register] and [generateToken];
  - [Validation]: the request-validation middleware
    ([validateLogin], [validateRegistration], [validateProfileUpdate],
    [validateFuelQuote]);
  - [Pricing] and [QuoteCore]: the pricing engine and the quote
    operations of controllers/userController.js;
  - [CredentialList]: the credential list over a run of registration
    requests, and the invariants it keeps.

  Handlers are functions from the state they read (and a request) to the
  state they leave and the response they send.  [console.log] output is
  not part of a response and is left out. *)

From Stdlib Require Import ZArith QArith Qround Lqa String Bool Lia.
From stdpp Require Import base list strings gmap sorting.

Local Open Scope string_scope.
Local Open Scope list_scope.
Local Open Scope Z_scope.

Set Warnings "-register-all".

(* ===================================================================== *)
(** ** JavaScript values *)
(* ===================================================================== *)

Module Js.

(** The values a parsed JSON body can hold, plus [undefined] for an
    absent property.  Numbers are exact rationals: JSON carries neither
    NaN nor an infinity. *)
Inductive jsval : Type :=
| JUndefined
| JNull
| JBool (b : bool)
| JNum (n : Q)
| JStr (s : string)
| JArr (elems : list jsval)
| JObj (fields : list (string * jsval)).

Definition object := list (string * jsval).

(** [o.k]: the first binding of [k], [undefined] when there is none. *)
Fixpoint get (o : object) (k : string) : jsval :=
  match o with
  | [] => JUndefined
  | (k', v) :: rest => if String.eqb k' k then v else get rest k
  end.

(** [k in o] for an object literal. *)
Definition has (o : object) (k : string) : bool :=
  existsb (fun kv => String.eqb (fst kv) k) o.

(** ToBoolean: [undefined], [null], [false], [0] and [''] are falsy,
    every array and object is truthy. *)
Definition truthy (v : jsval) : bool :=
  match v with
  | JUndefined | JNull => false
  | JBool b => b
  | JNum n => negb (Qeq_bool n 0)
  | JStr s => negb (String.eqb s "")
  | JArr _ | JObj _ => true
  end.

(** [a === b].  Primitives compare by type and value.  Arrays and
    objects compare by identity; the two sides of every [===] in the
    controllers come from different request bodies (or from a literal
    and a request body), so they are never the same object. *)
Definition strict_eq (a b : jsval) : bool :=
  match a, b with
  | JUndefined, JUndefined => true
  | JNull, JNull => true
  | JBool x, JBool y => Bool.eqb x y
  | JNum x, JNum y => Qeq_bool x y
  | JStr x, JStr y => String.eqb x y
  | _, _ => false
  end.

(** Express's [req] and [res], as far as the handlers use them:
    [req.body] and [res.status(c).json(v)]. *)
Record Req := { body : object }.
Record Res := { status : Z; json : jsval }.

(** A property of the JSON value sent, [undefined] unless an object
    with that key was sent. *)
Definition field (v : jsval) (k : string) : jsval :=
  match v with
  | JObj o => get o k
  | _ => JUndefined
  end.

Definition has_field (v : jsval) (k : string) : bool :=
  match v with
  | JObj o => has o k
  | _ => false
  end.

End Js.

Import Js.

(* ===================================================================== *)
(** ** controllers/authController.js *)
(* ===================================================================== *)

Module AuthController.

Record Credential := { username : jsval; password : jsval }.

(** The hardcoded list the module starts with. *)
Definition validCredentials : list Credential :=
  [ {| username := JStr "user_name123"; password := JStr "Password123!" |};
    {| username := JStr "user2"; password := JStr "password2@" |} ].

Definition generateToken (uname : jsval) : jsval := JStr "exampleToken".

(** [validCredentials.some(cred => cred.username === username &&
    cred.password === password)]. *)
Definition isValidUser (creds : list Credential) (uname pword : jsval)
  : bool :=
  existsb (fun cred => strict_eq (username cred) uname
                       && strict_eq (password cred) pword) creds.

(** [validCredentials.some(cred => cred.username === username)]. *)
Definition isUsernameTaken (creds : list Credential) (uname : jsval)
  : bool :=
  existsb (fun cred => strict_eq (username cred) uname) creds.

(** [login] only reads the list.  Nothing inside its [try] can throw,
    so the 500 branch of its [catch] is never taken. *)
Definition login (creds : list Credential) (req : Req) : Res :=
  let uname := get (body req) "username" in
  let pword := get (body req) "password" in
  if isValidUser creds uname pword then
    let token := generateToken uname in
    {| status := 200; json := JObj [("token", token)] |}
  else
    {| status := 401;
       json := JObj [("error", JStr "Invalid username or password")] |}.

(** [register] returns the list as it leaves it, and the response;
    [push] appends at the end. *)
Definition register (creds : list Credential) (req : Req)
  : list Credential * Res :=
  let uname := get (body req) "username" in
  let pword := get (body req) "password" in
  if isUsernameTaken creds uname then
    (creds,
     {| status := 409;
        json := JObj [("error", JStr "Username already taken")] |})
  else
    (creds ++ [ {| username := uname; password := pword |} ],
     {| status := 201;
        json := JObj [("message", JStr "User registered successfully")] |}).

(** The body of a login or registration request. *)
Definition credentialsRequest (uname pword : jsval) : Req :=
  {| body := [("username", uname); ("password", pword)] |}.

End AuthController.

(* ===================================================================== *)
(** ** The request-validation middleware *)
(* ===================================================================== *)

Module Validation.

(** A middleware either answers the request itself or calls [next()],
    which hands the request to the controller behind it. *)
Inductive handled : Type :=
| Respond (res : Res)
| Next.

Definition badRequest (msg : string) : handled :=
  Respond {| status := 400; json := JObj [("error", JStr msg)] |}.

Definition validateLogin (req : Req) : handled :=
  let uname := get (body req) "username" in
  let pword := get (body req) "password" in
  if negb (truthy uname) || negb (truthy pword) then
    badRequest "Username and password are required"
  else Next.

Definition validateRegistration (req : Req) : handled :=
  let uname := get (body req) "username" in
  let pword := get (body req) "password" in
  if negb (truthy uname) || negb (truthy pword) then
    badRequest "Username and password are required"
  else Next.

Definition validateProfileUpdate (req : Req) : handled :=
  let fullName := get (body req) "fullName" in
  let address1 := get (body req) "address1" in
  let city := get (body req) "city" in
  let state := get (body req) "state" in
  let zipcode := get (body req) "zipcode" in
  if negb (truthy fullName) || negb (truthy address1) || negb (truthy city)
     || negb (truthy state) || negb (truthy zipcode) then
    badRequest "Full name, address, city, state, and zipcode are required"
  else Next.

Definition validateFuelQuote (req : Req) : handled :=
  let gallonsRequested := get (body req) "gallonsRequested" in
  let deliveryDate := get (body req) "deliveryDate" in
  if negb (truthy gallonsRequested) || negb (truthy deliveryDate) then
    badRequest "Gallons requested and delivery date are required"
  else Next.

(** The body of a quote request as the frontend posts it. *)
Definition fuelQuoteRequest (gallonsRequested deliveryDate : jsval) : Req :=
  {| body := [("gallonsRequested", gallonsRequested);
              ("deliveryDate", deliveryDate)] |}.

End Validation.

(* ===================================================================== *)
(** ** The pricing engine *)
(* ===================================================================== *)

Module Pricing.

(** Modelled from the spec: the rate table behind controllers/pricing,
    which is not among the sources.  The spec names its factors (base
    rate, location surcharge, volume tier, loyalty discount) and leaves
    their coefficients and composition to the implementation, so the
    table is the composed, unrounded per-gallon rate as a function of
    [gallonsRequested], [state], [deliveryDate] and [hasHistory]. *)
Definition RateTable : Type := Q → string → string → bool → Q.

(** Modelled from the spec: [round2], rounding to two decimals.  Halves
    go up, as [Math.round(x * 100) / 100] does; the result is a reduced
    fraction. *)
Definition round2 (x : Q) : Q :=
  Qred (Qfloor (x * 100 + (1 # 2)) # 100).

(** Modelled from the spec: [pricePerGallon], the table's rate rounded
    once, at the end. *)
Definition calculatePricePerGallon (rates : RateTable)
    (gallonsRequested : Q) (state deliveryDate : string) (hasHistory : bool)
  : Q :=
  round2 (rates gallonsRequested state deliveryDate hasHistory).

(** Modelled from the spec: [totalAmountDue], derived from the rounded
    per-gallon price. *)
Definition calculateTotalPrice (rates : RateTable)
    (gallonsRequested : Q) (state deliveryDate : string) (hasHistory : bool)
  : Q :=
  round2 (calculatePricePerGallon rates gallonsRequested state deliveryDate
            hasHistory * gallonsRequested).

End Pricing.

(* ===================================================================== *)
(** ** Quotes: createQuote and getQuoteHistory *)
(* ===================================================================== *)

Module QuoteCore.

Import Pricing.

(** Modelled from the spec: a row of [user_credentials]; the table is
    keyed by the (unique) username. *)
Record Account := {
  userID : Z;
  passwordHash : string;
  profileComplete : bool
}.

(** Modelled from the spec: a row of [fuel_quote]. *)
Record Quote := {
  quote_id : Z;
  quote_userID : Z;
  gallonsRequested : Q;
  deliveryAddress : string;
  deliveryDate : string;
  pricePerGallon : Q;
  totalAmountDue : Q;
  created_at : Z
}.

(** Modelled from the spec: the persistence collaborator, as the two
    tables, the clock that stamps [created_at], and whether the storage
    is failing (every query then ends in an error). *)
Record Store := {
  user_credentials : gmap string Account;
  fuel_quote : list Quote;
  clock : Z;
  faulty : bool
}.

(** Modelled from the spec: what a controller of
    controllers/userController sends, a status with a payload, or a
    status with [{ error }]. *)
Inductive Reply (A : Type) : Type :=
| Sent (status : Z) (payload : A)
| Failed (status : Z) (error : string).
Arguments Sent {A} status payload.
Arguments Failed {A} status error.

(** Modelled from the spec: [findAccountByUsername]. *)
Definition findAccountByUsername (s : Store) (username : string)
  : option Account :=
  user_credentials s !! username.

(** Modelled from the spec: [listQuotesForUser] before ordering, the
    rows of [fuel_quote] with that [userID]. *)
Definition quotesForUser (s : Store) (uid : Z) : list Quote :=
  filter (λ q, quote_userID q = uid) (fuel_quote s).

(** Modelled from the spec: [countQuotesForUser]. *)
Definition countQuotesForUser (s : Store) (uid : Z) : nat :=
  length (quotesForUser s uid).

(** Modelled from the spec: the [quoteId] the persistence assigns, above
    every id already in the table. *)
Definition nextQuoteId (s : Store) : Z :=
  1 + foldr Z.max 0 (quote_id <$> fuel_quote s).

(** Modelled from the spec: [insertQuote]. *)
Definition insertQuote (s : Store) (q : Quote) : Store :=
  {| user_credentials := user_credentials s;
     fuel_quote := q :: fuel_quote s;
     clock := clock s;
     faulty := faulty s |}.

(** Modelled from the spec: [createQuote] of controllers/userController,
    which is not among the sources.  It follows the steps the spec lists
    for it (resolve the user, derive [hasHistory], price, persist) and its
    two failures; it makes no check of its own on [gallonsRequested], and
    it stamps [created_at] with the store's clock as it finds it. *)
Definition createQuote (rates : RateTable) (s : Store)
    (username : string) (gallons : Q) (address date state : string)
  : Store * Reply Quote :=
  if faulty s then (s, Failed 500 "Internal server error")
  else
    match findAccountByUsername s username with
    | None => (s, Failed 404 "User not found")
    | Some account =>
        let uid := userID account in
        let hasHistory := bool_decide (0 < countQuotesForUser s uid)%nat in
        let quote :=
          {| quote_id := nextQuoteId s;
             quote_userID := uid;
             gallonsRequested := gallons;
             deliveryAddress := address;
             deliveryDate := date;
             pricePerGallon :=
               calculatePricePerGallon rates gallons state date hasHistory;
             totalAmountDue :=
               calculateTotalPrice rates gallons state date hasHistory;
             created_at := clock s |} in
        (insertQuote s quote, Sent 201 quote)
    end.

(** Modelled from the spec: [ORDER BY created_at DESC], the later row
    first. *)
Definition newerFirst (a b : Quote) : Prop := created_at b ≤ created_at a.

#[global] Instance newerFirst_dec : RelDecision newerFirst.
Proof. intros a b. unfold newerFirst. apply _. Defined.

(** Modelled from the spec: [getQuoteHistory] of
    controllers/userController, which is not among the sources.  Its
    query selects the rows of [fuel_quote] whose [userID] is the one the
    username resolves to, newest first; an unknown username selects
    nothing. *)
Definition getQuoteHistory (s : Store) (username : string)
  : Reply (list Quote) :=
  if faulty s then Failed 500 "Internal server error"
  else
    match findAccountByUsername s username with
    | None => Sent 200 []
    | Some account =>
        Sent 200 (merge_sort newerFirst (quotesForUser s (userID account)))
    end.

End QuoteCore.

(* ===================================================================== *)
(** ** Example data *)
(* ===================================================================== *)

Module Examples.

Import Pricing QuoteCore.

(** A rate table with the four factors the spec names, composed by
    addition: a base rate, a surcharge by destination, a volume tier and
    a discount for customers with history.  Its numbers are an example
    only: the coefficients of controllers/pricing are not known. *)
Definition exampleRates : RateTable :=
  λ gallons state _ hasHistory,
    ((150 # 100)
     + (if String.eqb state "TX" then 3 # 100 else 6 # 100)
     + (if Qle_bool 1000 gallons then 18 # 100 else 24 # 100)
     - (if hasHistory then 3 # 100 else 0))%Q.

Definition earlierQuote : Quote :=
  {| quote_id := 1; quote_userID := 1; gallonsRequested := 150;
     deliveryAddress := "123 Main St"; deliveryDate := "2024-03-01";
     pricePerGallon := 174 # 100; totalAmountDue := 261;
     created_at := 5 |}.

Definition otherQuote : Quote :=
  {| quote_id := 2; quote_userID := 7; gallonsRequested := 20;
     deliveryAddress := "9 Elm St"; deliveryDate := "2024-03-02";
     pricePerGallon := 177 # 100; totalAmountDue := 354 # 10;
     created_at := 6 |}.

(** A store in which "testuser" is account 1 and already has a quote. *)
Definition exampleStore : Store :=
  {| user_credentials :=
       {[ "testuser" := {| userID := 1; passwordHash := "hashedPassword";
                           profileComplete := true |};
          "otheruser" := {| userID := 7; passwordHash := "hashedPassword";
                            profileComplete := false |} ]};
     fuel_quote := [ otherQuote; earlierQuote ];
     clock := 10;
     faulty := false |}.

End Examples.

(* ===================================================================== *)
(** ** The credential list over a run of the server *)
(* ===================================================================== *)

Module CredentialList.

Import AuthController.

(** [validCredentials] after the registration requests [reqs] were
    handled in order; [login] never writes to the list. *)
Definition registerAll (creds : list Credential) (reqs : list Req)
  : list Credential :=
  foldl (λ acc req, (register acc req).1) creds reqs.

(** The values [===] compares by value: everything but arrays and
    objects. *)
Definition primitive (v : jsval) : bool :=
  match v with
  | JArr _ | JObj _ => false
  | _ => true
  end.

(** No two entries of the list have [===] usernames. *)
Fixpoint distinctUsernames (creds : list Credential) : bool :=
  match creds with
  | [] => true
  | cred :: rest =>
      negb (isUsernameTaken rest (username cred)) && distinctUsernames rest
  end.

(** Every entry has a truthy username and a truthy password. *)
Definition allTruthy (creds : list Credential) : bool :=
  forallb (λ cred, truthy (username cred) && truthy (password cred)) creds.

End CredentialList.

(* ===================================================================== *)
(** * Properties of the in-memory credential list *)
(* ===================================================================== *)

Section AuthProperties.

Import AuthController.

Lemma strict_eq_JStr (a b : string) :
  strict_eq (JStr a) (JStr b) = true ↔ a = b.
Proof. simpl. apply String.eqb_eq. Qed.

Lemma strict_eq_JStr_refl (a : string) : strict_eq (JStr a) (JStr a) = true.
Proof. by apply strict_eq_JStr. Qed.

Lemma isUsernameTaken_app (creds more : list Credential) (u : jsval) :
  isUsernameTaken (creds ++ more) u
  = isUsernameTaken creds u || isUsernameTaken more u.
Proof. unfold isUsernameTaken. apply existsb_app. Qed.

Lemma isValidUser_app (creds more : list Credential) (u p : jsval) :
  isValidUser (creds ++ more) u p
  = isValidUser creds u p || isValidUser more u p.
Proof. unfold isValidUser. apply existsb_app. Qed.

(** A pair that matches some credential matches its username. *)
Lemma isValidUser_taken (creds : list Credential) (u p : jsval) :
  isValidUser creds u p = true → isUsernameTaken creds u = true.
Proof.
  induction creds as [|c creds IH]; simpl; [done|].
  intros [[Hu _]%andb_true_iff | H]%orb_true_iff.
  - by rewrite Hu.
  - rewrite (IH H). apply orb_true_r.
Qed.

Lemma isValidUser_free (creds : list Credential) (u p : jsval) :
  isUsernameTaken creds u = false → isValidUser creds u p = false.
Proof.
  intros Hfree. destruct (isValidUser creds u p) eqn:Hv; [|done].
  apply isValidUser_taken in Hv. congruence.
Qed.

Lemma register_taken (creds : list Credential) (req : Req) :
  isUsernameTaken creds (get (body req) "username") = true →
  register creds req
  = (creds, {| status := 409;
               json := JObj [("error", JStr "Username already taken")] |}).
Proof. intros H. unfold register. by rewrite H. Qed.

Lemma register_free (creds : list Credential) (req : Req) :
  isUsernameTaken creds (get (body req) "username") = false →
  register creds req
  = (creds ++ [ {| username := get (body req) "username";
                   password := get (body req) "password" |} ],
     {| status := 201;
        json := JObj [("message", JStr "User registered successfully")] |}).
Proof. intros H. unfold register. by rewrite H. Qed.

(** Whatever [register] answers, a string username is on the list
    afterwards. *)
Lemma register_makes_taken (creds : list Credential) (req : Req) (u : string) :
  get (body req) "username" = JStr u →
  isUsernameTaken (register creds req).1 (JStr u) = true.
Proof.
  intros Hu. unfold register. rewrite Hu.
  destruct (isUsernameTaken creds (JStr u)) eqn:Ht; simpl; [done|].
  rewrite isUsernameTaken_app. cbn [isUsernameTaken existsb username].
  rewrite strict_eq_JStr_refl. by rewrite orb_true_r.
Qed.

Lemma login_rejects (creds : list Credential) (req : Req) :
  isValidUser creds (get (body req) "username") (get (body req) "password")
  = false →
  login creds req
  = {| status := 401;
       json := JObj [("error", JStr "Invalid username or password")] |}.
Proof. intros H. unfold login. by rewrite H. Qed.

Lemma login_accepts (creds : list Credential) (req : Req) :
  isValidUser creds (get (body req) "username") (get (body req) "password")
  = true →
  login creds req
  = {| status := 200; json := JObj [("token", JStr "exampleToken")] |}.
Proof. intros H. unfold login. by rewrite H. Qed.

Lemma login_status (creds : list Credential) (req : Req) :
  status (login creds req) = 200 →
  login creds req
  = {| status := 200; json := JObj [("token", JStr "exampleToken")] |}.
Proof.
  unfold login. by destruct (isValidUser _ _ _).
Qed.

(** The hardcoded credentials log in; a wrong password and an unknown
    username do not. *)
Example login_hardcoded :
  login validCredentials
    (credentialsRequest (JStr "user_name123") (JStr "Password123!"))
  = {| status := 200; json := JObj [("token", JStr "exampleToken")] |}.
Proof. reflexivity. Qed.

Example login_wrong_password :
  login validCredentials
    (credentialsRequest (JStr "user2") (JStr "wrongpassword"))
  = {| status := 401;
       json := JObj [("error", JStr "Invalid username or password")] |}.
Proof. reflexivity. Qed.

Example register_existing :
  register validCredentials
    (credentialsRequest (JStr "user2") (JStr "testpassword123@"))
  = (validCredentials,
     {| status := 409;
        json := JObj [("error", JStr "Username already taken")] |}).
Proof. reflexivity. Qed.

(** C3 (uniqueness).  Registering the same username twice: the second
    call answers 409 "Username already taken" and leaves the credential
    list, and with it the credential the first call stored for the
    username, exactly as the first call left it.  This holds from every
    list and for every pair of passwords. *)
Theorem register_twice_conflict
    (creds : list Credential) (req1 req2 : Req) (u : string) :
  get (body req1) "username" = JStr u →
  get (body req2) "username" = JStr u →
  register (register creds req1).1 req2
  = ((register creds req1).1,
     {| status := 409;
        json := JObj [("error", JStr "Username already taken")] |}).
Proof.
  intros Hu1 Hu2. apply register_taken. rewrite Hu2.
  by apply register_makes_taken.
Qed.

Lemma register_twice_conflict_witness :
  let req1 := credentialsRequest (JStr "testuser") (JStr "testpassword123@") in
  let req2 := credentialsRequest (JStr "testuser") (JStr "another") in
  get (body req1) "username" = JStr "testuser" ∧
  get (body req2) "username" = JStr "testuser" ∧
  register (register validCredentials req1).1 req2
  = (validCredentials
       ++ [ {| username := JStr "testuser";
               password := JStr "testpassword123@" |} ],
     {| status := 409;
        json := JObj [("error", JStr "Username already taken")] |}).
Proof.
  intros req1 req2. split; [reflexivity|]. split; [reflexivity|].
  apply (register_twice_conflict validCredentials req1 req2 "testuser");
    reflexivity.
Defined.

(** C4 as stated fails: registering the free username "testuser"
    answers 201 with a message, and the body carries no token. *)
Lemma register_sends_no_token :
  let res :=
    (register validCredentials
       (credentialsRequest (JStr "testuser") (JStr "testpassword123@"))).2 in
  status res = 201 ∧
  has_field (json res) "message" = true ∧
  has_field (json res) "token" = false.
Proof. by vm_compute. Qed.

(** C4, amended.  When the username is not on the list, [register]
    appends the new credential and answers 201 with the body
    [{ message: 'User registered successfully' }]; the body has no
    [token]. *)
Theorem register_free_username (creds : list Credential) (req : Req) :
  isUsernameTaken creds (get (body req) "username") = false →
  (register creds req).1
  = creds ++ [ {| username := get (body req) "username";
                  password := get (body req) "password" |} ] ∧
  (register creds req).2
  = {| status := 201;
       json := JObj [("message", JStr "User registered successfully")] |} ∧
  has_field (json (register creds req).2) "token" = false.
Proof. intros H. by rewrite (register_free _ _ H). Qed.

Lemma register_free_username_witness :
  let req := credentialsRequest (JStr "testuser") (JStr "testpassword123@") in
  isUsernameTaken validCredentials (get (body req) "username") = false ∧
  (register validCredentials req).1
  = validCredentials
      ++ [ {| username := JStr "testuser";
              password := JStr "testpassword123@" |} ] ∧
  (register validCredentials req).2
  = {| status := 201;
       json := JObj [("message", JStr "User registered successfully")] |} ∧
  has_field (json (register validCredentials req).2) "token" = false.
Proof.
  intros req. split; [reflexivity|].
  apply (register_free_username validCredentials req). reflexivity.
Defined.

(** C5 as stated fails: after a successful registration the list holds
    the supplied password "testpassword123@" itself. *)
Lemma register_stores_plaintext :
  let out :=
    register validCredentials
      (credentialsRequest (JStr "testuser") (JStr "testpassword123@")) in
  status out.2 = 201 ∧
  last out.1 = Some {| username := JStr "testuser";
                       password := JStr "testpassword123@" |}.
Proof. by vm_compute. Qed.

(** C5, amended.  For every registration that succeeds, the passwords
    on the list afterwards are those before followed by the supplied
    password, verbatim: no hash is taken. *)
Theorem register_stores_password_verbatim
    (creds : list Credential) (req : Req) :
  status (register creds req).2 = 201 →
  password <$> (register creds req).1
  = (password <$> creds) ++ [ get (body req) "password" ].
Proof.
  unfold register.
  destruct (isUsernameTaken creds _); simpl; [done|].
  intros _. by rewrite fmap_app.
Qed.

Lemma register_stores_password_verbatim_witness :
  let req := credentialsRequest (JStr "testuser") (JStr "testpassword123@") in
  status (register validCredentials req).2 = 201 ∧
  password <$> (register validCredentials req).1
  = [ JStr "Password123!"; JStr "password2@"; JStr "testpassword123@" ].
Proof.
  intros req. split; [reflexivity|].
  apply (register_stores_password_verbatim validCredentials req).
  reflexivity.
Defined.

(** C6.  A login for a username that is not on the list and a login for
    a username that is on the list, with a password that does not match,
    get the same response: 401 with the error
    "Invalid username or password". *)
Theorem login_failures_identical
    (creds : list Credential) (req1 req2 : Req) :
  isUsernameTaken creds (get (body req1) "username") = false →
  isUsernameTaken creds (get (body req2) "username") = true →
  isValidUser creds (get (body req2) "username") (get (body req2) "password")
  = false →
  login creds req1 = login creds req2 ∧
  login creds req1
  = {| status := 401;
       json := JObj [("error", JStr "Invalid username or password")] |}.
Proof.
  intros Hfree _ Hwrong.
  rewrite (login_rejects creds req2 Hwrong).
  by rewrite (login_rejects creds req1 (isValidUser_free _ _ _ Hfree)).
Qed.

Lemma login_failures_identical_witness :
  let req1 :=
    credentialsRequest (JStr "nonexistentuser") (JStr "testpassword123@") in
  let req2 := credentialsRequest (JStr "user2") (JStr "wrongpassword") in
  isUsernameTaken validCredentials (get (body req1) "username") = false ∧
  isUsernameTaken validCredentials (get (body req2) "username") = true ∧
  isValidUser validCredentials
    (get (body req2) "username") (get (body req2) "password") = false ∧
  login validCredentials req1 = login validCredentials req2 ∧
  login validCredentials req1
  = {| status := 401;
       json := JObj [("error", JStr "Invalid username or password")] |}.
Proof.
  intros req1 req2.
  split; [reflexivity|]. split; [reflexivity|]. split; [reflexivity|].
  apply (login_failures_identical validCredentials req1 req2); reflexivity.
Defined.

(** C7 (credential round trip).  When the username [u] is not on the
    list, [register(u, p)] answers 201 and the [login(u, p)] that
    follows answers 200 with a token. *)
Theorem register_then_login (creds : list Credential) (u p : string) :
  isUsernameTaken creds (JStr u) = false →
  let req := credentialsRequest (JStr u) (JStr p) in
  status (register creds req).2 = 201 ∧
  login (register creds req).1 req
  = {| status := 200; json := JObj [("token", JStr "exampleToken")] |}.
Proof.
  intros Hfree req.
  rewrite (register_free creds req Hfree). cbn [fst snd]. split; [done|].
  apply login_accepts. rewrite isValidUser_app.
  apply orb_true_iff. right. subst req. simpl.
  by rewrite !String.eqb_refl.
Qed.

Lemma register_then_login_witness :
  let req := credentialsRequest (JStr "testuser") (JStr "testpassword123@") in
  isUsernameTaken validCredentials (JStr "testuser") = false ∧
  status (register validCredentials req).2 = 201 ∧
  login (register validCredentials req).1 req
  = {| status := 200; json := JObj [("token", JStr "exampleToken")] |}.
Proof.
  intros req. split; [reflexivity|].
  apply (register_then_login validCredentials "testuser" "testpassword123@").
  reflexivity.
Defined.

(** C10.  [generateToken] returns 'exampleToken' for every username, so
    any two successful logins, for whichever users and from whichever
    credential lists, send the same body [{ token: 'exampleToken' }]. *)
Theorem generateToken_constant :
  (∀ u : jsval, generateToken u = JStr "exampleToken") ∧
  (∀ (creds1 creds2 : list Credential) (req1 req2 : Req),
      status (login creds1 req1) = 200 →
      status (login creds2 req2) = 200 →
      json (login creds1 req1) = json (login creds2 req2) ∧
      field (json (login creds1 req1)) "token" = JStr "exampleToken").
Proof.
  split; [done|].
  intros creds1 creds2 req1 req2 H1%login_status H2%login_status.
  by rewrite H1, H2.
Qed.

Lemma generateToken_constant_witness :
  let req1 := credentialsRequest (JStr "user_name123") (JStr "Password123!") in
  let req2 := credentialsRequest (JStr "user2") (JStr "password2@") in
  status (login validCredentials req1) = 200 ∧
  status (login validCredentials req2) = 200 ∧
  json (login validCredentials req1) = json (login validCredentials req2) ∧
  field (json (login validCredentials req1)) "token" = JStr "exampleToken".
Proof.
  intros req1 req2. split; [reflexivity|]. split; [reflexivity|].
  apply (proj2 generateToken_constant validCredentials validCredentials
           req1 req2); reflexivity.
Defined.

End AuthProperties.

(* ===================================================================== *)
(** * Properties of the validation middleware *)
(* ===================================================================== *)

Section ValidationProperties.

Import Validation.

Lemma truthy_JNum (n : Q) : truthy (JNum n) = true ↔ ¬ (n == 0)%Q.
Proof.
  simpl. rewrite negb_true_iff, <- not_true_iff_false.
  by rewrite Qeq_bool_iff.
Qed.

Lemma validateFuelQuote_cases (req : Req) :
  validateFuelQuote req
  = if truthy (get (body req) "gallonsRequested")
       && truthy (get (body req) "deliveryDate")
    then Next
    else badRequest "Gallons requested and delivery date are required".
Proof.
  unfold validateFuelQuote.
  by destruct (truthy (get (body req) "gallonsRequested")),
              (truthy (get (body req) "deliveryDate")).
Qed.

Example validateFuelQuote_missing_fields :
  validateFuelQuote {| body := [] |}
  = badRequest "Gallons requested and delivery date are required".
Proof. reflexivity. Qed.

Example validateFuelQuote_reference_request :
  validateFuelQuote
    {| body := [("username", JStr "testuser");
                ("gallonsRequested", JNum 100);
                ("deliveryAddress", JStr "123 Main St");
                ("deliveryDate", JStr "2024-04-10");
                ("state", JStr "TX"); ("hasHistory", JBool true)] |}
  = Next.
Proof. reflexivity. Qed.

(** C8 as stated fails: a request for -5 gallons, which is not above 0,
    is not rejected; the middleware calls [next()]. *)
Lemma validateFuelQuote_passes_negative :
  (-5 <= 0)%Q ∧
  validateFuelQuote (fuelQuoteRequest (JNum (-5)) (JStr "2024-04-10")) = Next.
Proof. split; [by vm_compute | reflexivity]. Qed.

(** C8, amended.  [validateFuelQuote] calls [next()] exactly when
    [gallonsRequested] and [deliveryDate] are both truthy, and answers
    400 "Gallons requested and delivery date are required" otherwise.
    So a request whose [gallonsRequested] is the number 0 (or is absent)
    is rejected before the controller runs, and a numeric
    [gallonsRequested] that reaches the controller is different from 0. *)
Theorem validateFuelQuote_requires_truthy (req : Req) :
  let gallonsRequested := get (body req) "gallonsRequested" in
  let deliveryDate := get (body req) "deliveryDate" in
  (validateFuelQuote req = Next ↔
     truthy gallonsRequested = true ∧ truthy deliveryDate = true) ∧
  (validateFuelQuote req ≠ Next →
     validateFuelQuote req
     = badRequest "Gallons requested and delivery date are required") ∧
  (∀ n : Q, gallonsRequested = JNum n →
     ((n == 0)%Q → validateFuelQuote req ≠ Next) ∧
     (validateFuelQuote req = Next → ¬ (n == 0)%Q)).
Proof.
  intros g d. rewrite validateFuelQuote_cases. fold g d.
  split; [|split].
  - destruct (truthy g), (truthy d); simpl; intuition discriminate.
  - by destruct (truthy g && truthy d).
  - intros n Hg. pose proof (truthy_JNum n) as Hn. rewrite <- Hg in Hn.
    destruct (truthy g), (truthy d); simpl;
      intuition (auto; discriminate).
Qed.

Lemma validateFuelQuote_requires_truthy_witness :
  let req := fuelQuoteRequest (JNum 0) (JStr "2024-04-10") in
  get (body req) "gallonsRequested" = JNum 0 ∧
  (0 == 0)%Q ∧
  validateFuelQuote req ≠ Next ∧
  validateFuelQuote req
  = badRequest "Gallons requested and delivery date are required".
Proof.
  intros req.
  pose proof (validateFuelQuote_requires_truthy req) as (_ & Hbad & Hnum).
  destruct (Hnum 0%Q eq_refl) as [Hzero _].
  assert (Hz : (0 == 0)%Q) by reflexivity.
  split; [reflexivity|]. split; [exact Hz|].
  split; [exact (Hzero Hz) | exact (Hbad (Hzero Hz))].
Defined.

End ValidationProperties.

(* ===================================================================== *)
(** * Properties of pricing and quotes *)
(* ===================================================================== *)

Section QuoteProperties.

Import Pricing QuoteCore Examples.

Lemma Qfloor_unique (z : Z) (x : Q) :
  (inject_Z z <= x)%Q → (x < inject_Z (z + 1))%Q → Qfloor x = z.
Proof.
  intros Hlo Hhi.
  pose proof (Qfloor_le x) as Hfl. pose proof (Qlt_floor x) as Hfu.
  assert (z < Qfloor x + 1)
    by (rewrite Zlt_Qlt; eapply Qle_lt_trans; eassumption).
  assert (Qfloor x < z + 1)
    by (rewrite Zlt_Qlt; eapply Qle_lt_trans; eassumption).
  lia.
Qed.

(** [round2 x] is the whole number of cents nearest to [x], over 100. *)
Lemma round2_cents (x : Q) :
  (round2 x == Qfloor (x * 100 + (1 # 2)) # 100)%Q.
Proof. unfold round2. apply Qred_correct. Qed.

Lemma cents_plus_half (z : Z) :
  ((z # 100) * 100 + (1 # 2) == inject_Z z + (1 # 2))%Q.
Proof.
  unfold Qeq, Qplus, Qmult, inject_Z. simpl.
  rewrite ?Pos2Z.inj_mul. lia.
Qed.

Lemma Qfloor_cents (z : Z) : Qfloor ((z # 100) * 100 + (1 # 2)) = z.
Proof.
  rewrite cents_plus_half. apply Qfloor_unique.
  - lra.
  - rewrite inject_Z_plus. change (inject_Z 1) with 1%Q. lra.
Qed.

(** Rounding an amount that is already in whole cents changes nothing. *)
Lemma round2_idempotent (x : Q) : round2 (round2 x) = round2 x.
Proof.
  unfold round2 at 1 3. apply Qred_complete.
  rewrite round2_cents. by rewrite Qfloor_cents.
Qed.

(** The rounded price, not the table's rate, is what the total is
    computed from: at a rate of 1.744 for 1000 gallons the total is
    1740, where the unrounded rate would give 1744. *)
Example total_from_rounded_price :
  let rates : RateTable := λ _ _ _ _, (1744 # 1000)%Q in
  calculateTotalPrice rates 1000%Q "TX" "2024-04-10" true = 1740%Q ∧
  round2 (rates 1000%Q "TX" "2024-04-10" true * 1000) = 1744%Q.
Proof. by vm_compute. Qed.

Example createQuote_unknown_user :
  createQuote exampleRates exampleStore "nonexistentuser" 100%Q
    "123 Main St" "2024-04-10" "TX"
  = (exampleStore, Failed 404 "User not found").
Proof. by vm_compute. Qed.

Example createQuote_storage_fault :
  let broken :=
    {| user_credentials := user_credentials exampleStore;
       fuel_quote := fuel_quote exampleStore;
       clock := clock exampleStore; faulty := true |} in
  createQuote exampleRates broken "testuser" 100%Q
    "123 Main St" "2024-04-10" "TX"
  = (broken, Failed 500 "Internal server error") ∧
  getQuoteHistory broken "testuser" = Failed 500 "Internal server error".
Proof. by vm_compute. Qed.

Lemma createQuote_succeeds (rates : RateTable) (s : Store) (account : Account)
    (username : string) (gallons : Q) (address date state : string) :
  faulty s = false →
  findAccountByUsername s username = Some account →
  ∃ quote,
    createQuote rates s username gallons address date state
    = (insertQuote s quote, Sent 201 quote) ∧
    quote_userID quote = userID account ∧
    gallonsRequested quote = gallons ∧
    pricePerGallon quote
    = calculatePricePerGallon rates gallons state date
        (bool_decide (0 < countQuotesForUser s (userID account))%nat) ∧
    totalAmountDue quote
    = round2 (pricePerGallon quote * gallons).
Proof.
  intros Hok Hacc. unfold createQuote. rewrite Hok, Hacc.
  eexists. split; [reflexivity|]. by simpl.
Qed.

(** C2 (total derivation).  Every quote that [createQuote] returns is
    the row it has stored; its [pricePerGallon] is already rounded to two
    decimals, and its [totalAmountDue] is [round2] of that rounded price
    times [gallonsRequested]. *)
Theorem createQuote_total_derivation
    (rates : RateTable) (s s' : Store) (username : string) (gallons : Q)
    (address date state : string) (code : Z) (quote : Quote) :
  createQuote rates s username gallons address date state
  = (s', Sent code quote) →
  fuel_quote s' = quote :: fuel_quote s ∧
  round2 (pricePerGallon quote) = pricePerGallon quote ∧
  totalAmountDue quote
  = round2 (pricePerGallon quote * gallonsRequested quote).
Proof.
  unfold createQuote. destruct (faulty s); [done|].
  destruct (findAccountByUsername s username) as [account|]; [|done].
  intros [= <- _ <-]. cbn [fuel_quote insertQuote pricePerGallon
                            totalAmountDue gallonsRequested].
  split; [done|]. split; [|done].
  unfold calculatePricePerGallon. apply round2_idempotent.
Qed.

Lemma createQuote_total_derivation_witness :
  let quote :=
    {| quote_id := 3; quote_userID := 1; gallonsRequested := 100;
       deliveryAddress := "123 Main St"; deliveryDate := "2024-04-10";
       pricePerGallon := 87 # 50; totalAmountDue := 174;
       created_at := 10 |} in
  createQuote exampleRates exampleStore "testuser" 100%Q "123 Main St"
    "2024-04-10" "TX"
  = (insertQuote exampleStore quote, Sent 201 quote) ∧
  fuel_quote (insertQuote exampleStore quote)
  = quote :: fuel_quote exampleStore ∧
  round2 (pricePerGallon quote) = pricePerGallon quote ∧
  totalAmountDue quote
  = round2 (pricePerGallon quote * gallonsRequested quote).
Proof.
  intros quote.
  assert (H : createQuote exampleRates exampleStore "testuser" 100%Q
                "123 Main St" "2024-04-10" "TX"
              = (insertQuote exampleStore quote, Sent 201 quote))
    by (vm_compute; reflexivity).
  split; [exact H|].
  exact (createQuote_total_derivation exampleRates exampleStore
           (insertQuote exampleStore quote) "testuser" 100%Q "123 Main St"
           "2024-04-10" "TX" 201 quote H).
Defined.

#[local] Instance newerFirst_transitive : Transitive newerFirst.
Proof. intros a b c. unfold newerFirst. lia. Qed.

#[local] Instance newerFirst_total : Total newerFirst.
Proof. intros a b. unfold newerFirst. lia. Qed.

(** The rows a username owns: those whose [userID] is the one the
    username resolves to. *)
Lemma quotesForUser_owned (s : Store) (username : string) (account : Account) :
  findAccountByUsername s username = Some account →
  quotesForUser s (userID account)
  = filter (λ q, Some (quote_userID q)
                 = userID <$> findAccountByUsername s username)
      (fuel_quote s).
Proof.
  intros ->. unfold quotesForUser. apply list_filter_iff.
  intros q. simpl. split; [by intros -> | by intros [= ->]].
Qed.

Lemma no_quotes_for_unknown (s : Store) (username : string) :
  findAccountByUsername s username = None →
  filter (λ q, Some (quote_userID q)
               = userID <$> findAccountByUsername s username)
    (fuel_quote s) = [].
Proof.
  intros ->. simpl. induction (fuel_quote s) as [|q l IH]; [done|].
  by rewrite filter_cons_False.
Qed.

(** After the reference quote is stored, the history of "testuser"
    shows it first and the earlier quote after it; the quote of the
    other account is not there. *)
Example getQuoteHistory_after_createQuote :
  let s' :=
    (createQuote exampleRates exampleStore "testuser" 100%Q "123 Main St"
       "2024-04-10" "TX").1 in
  (λ r, match r with
        | Sent code rows => Some (code, quote_id <$> rows)
        | Failed _ _ => None
        end) (getQuoteHistory s' "testuser")
  = Some (200, [3; 1]).
Proof. by vm_compute. Qed.

Example getQuoteHistory_no_quotes :
  getQuoteHistory exampleStore "nonexistentuser" = Sent 200 [].
Proof. by vm_compute. Qed.

(** C9 (history).  On a working store, [getQuoteHistory] answers 200
    with exactly the rows of [fuel_quote] owned by the username's
    account (each once, none else), ordered by [created_at] descending;
    when there is none the answer is still 200, with the empty list. *)
Theorem getQuoteHistory_owned_newest_first (s : Store) (username : string) :
  faulty s = false →
  let owned :=
    filter (λ q, Some (quote_userID q)
                 = userID <$> findAccountByUsername s username)
      (fuel_quote s) in
  ∃ rows,
    getQuoteHistory s username = Sent 200 rows ∧
    rows ≡ₚ owned ∧
    StronglySorted (λ a b, created_at b ≤ created_at a) rows ∧
    (owned = [] → rows = []).
Proof.
  intros Hok owned. unfold getQuoteHistory. rewrite Hok.
  destruct (findAccountByUsername s username) as [account|] eqn:Hacc.
  - pose proof (quotesForUser_owned s username account Hacc) as Hq.
    rewrite Hacc in Hq. rewrite Hq. fold owned.
    exists (merge_sort newerFirst owned).
    pose proof (merge_sort_Permutation newerFirst owned) as Hperm.
    split; [done|]. split; [done|]. split.
    + apply (StronglySorted_merge_sort newerFirst).
    + intros Hnil. apply Permutation_nil_r. by rewrite Hperm, Hnil.
  - pose proof (no_quotes_for_unknown s username Hacc) as Hq.
    rewrite Hacc in Hq. fold owned in Hq. rewrite Hq.
    exists []. repeat split; [done | constructor].
Qed.

Lemma getQuoteHistory_owned_newest_first_witness :
  let s := (insertQuote exampleStore
              {| quote_id := 3; quote_userID := 1; gallonsRequested := 100;
                 deliveryAddress := "123 Main St";
                 deliveryDate := "2024-04-10";
                 pricePerGallon := 87 # 50; totalAmountDue := 174;
                 created_at := 10 |}) in
  let owned :=
    filter (λ q, Some (quote_userID q)
                 = userID <$> findAccountByUsername s "testuser")
      (fuel_quote s) in
  faulty s = false ∧
  ∃ rows,
    getQuoteHistory s "testuser" = Sent 200 rows ∧
    rows ≡ₚ owned ∧
    StronglySorted (λ a b, created_at b ≤ created_at a) rows ∧
    (owned = [] → rows = []).
Proof.
  intros s owned. split; [reflexivity|].
  apply (getQuoteHistory_owned_newest_first s "testuser"). reflexivity.
Defined.

End QuoteProperties.

(* ===================================================================== *)
(** * More on the credential list: what registrations keep and grant *)
(* ===================================================================== *)

Section CredentialListProperties.

Import AuthController CredentialList.

Lemma Qeq_bool_sym (x y : Q) : Qeq_bool x y = Qeq_bool y x.
Proof.
  destruct (Qeq_bool x y) eqn:Hxy, (Qeq_bool y x) eqn:Hyx; try done.
  - apply Qeq_bool_iff, Qeq_sym, Qeq_bool_iff in Hxy. congruence.
  - apply Qeq_bool_iff, Qeq_sym, Qeq_bool_iff in Hyx. congruence.
Qed.

Lemma strict_eq_sym (a b : jsval) : strict_eq a b = strict_eq b a.
Proof.
  destruct a, b; simpl; try done.
  - by destruct b, b0.
  - apply Qeq_bool_sym.
  - apply String.eqb_sym.
Qed.

Lemma strict_eq_trans (a b c : jsval) :
  strict_eq a b = true → strict_eq b c = true → strict_eq a c = true.
Proof.
  destruct a, b; simpl; try done; destruct c; simpl; try done.
  - intros ->%Bool.eqb_prop. done.
  - rewrite !Qeq_bool_iff. apply Qeq_trans.
  - intros ->%String.eqb_eq. done.
Qed.

Lemma strict_eq_primitive (v : jsval) :
  primitive v = true → strict_eq v v = true.
Proof.
  destruct v; simpl; try done; intros _.
  - by destruct b.
  - apply Qeq_bool_refl.
  - apply String.eqb_refl.
Qed.

Lemma strict_eq_not_primitive (v w : jsval) :
  primitive v = false → strict_eq v w = false.
Proof. by destruct v. Qed.

(** [===] values are interchangeable on the right of [===]. *)
Lemma strict_eq_compat (a b c : jsval) :
  strict_eq a b = true → strict_eq c a = strict_eq c b.
Proof.
  intros Hab.
  destruct (strict_eq c a) eqn:Hca, (strict_eq c b) eqn:Hcb; try done.
  - by rewrite (strict_eq_trans c a b Hca Hab) in Hcb.
  - rewrite strict_eq_sym in Hab.
    by rewrite (strict_eq_trans c b a Hcb Hab) in Hca.
Qed.

Lemma isUsernameTaken_compat (creds : list Credential) (a b : jsval) :
  strict_eq a b = true → isUsernameTaken creds a = isUsernameTaken creds b.
Proof.
  intros Hab. induction creds as [|c creds IH]; simpl; [done|].
  by rewrite (strict_eq_compat a b _ Hab), IH.
Qed.

(** [===] values are truthy together. *)
Lemma strict_eq_truthy (a b : jsval) :
  strict_eq a b = true → truthy a = truthy b.
Proof.
  destruct a, b; simpl; try done.
  - by intros ->%Bool.eqb_prop.
  - intros Hab. f_equal. rewrite (Qeq_bool_sym n 0), (Qeq_bool_sym n0 0).
    change (strict_eq (JNum 0) (JNum n) = strict_eq (JNum 0) (JNum n0)).
    by apply strict_eq_compat.
  - by intros ->%String.eqb_eq.
Qed.

Lemma get_missing (o : object) (k : string) :
  has o k = false → get o k = JUndefined.
Proof.
  induction o as [|[k' v] o IH]; simpl; [done|].
  destruct (String.eqb k' k); simpl; [done | apply IH].
Qed.

(** What a request must be for a list to let it in, after one more
    registration. *)
Lemma isValidUser_register (creds : list Credential) (req : Req) (u p : jsval) :
  isValidUser (register creds req).1 u p
  = isValidUser creds u p
    || (negb (isUsernameTaken creds (get (body req) "username"))
        && strict_eq (get (body req) "username") u
        && strict_eq (get (body req) "password") p).
Proof.
  unfold register.
  destruct (isUsernameTaken creds _); simpl.
  - by rewrite orb_false_r.
  - rewrite isValidUser_app. simpl. by rewrite orb_false_r.
Qed.

Lemma isUsernameTaken_register (creds : list Credential) (req : Req) (u : jsval) :
  isUsernameTaken (register creds req).1 u
  = isUsernameTaken creds u
    || (negb (isUsernameTaken creds (get (body req) "username"))
        && strict_eq (get (body req) "username") u).
Proof.
  unfold register.
  destruct (isUsernameTaken creds _); simpl.
  - by rewrite orb_false_r.
  - rewrite isUsernameTaken_app. simpl. by rewrite orb_false_r.
Qed.

Lemma login_decided (creds1 creds2 : list Credential) (req : Req) :
  isValidUser creds1 (get (body req) "username") (get (body req) "password")
  = isValidUser creds2 (get (body req) "username") (get (body req) "password")
  → login creds1 req = login creds2 req.
Proof. unfold login. by intros ->. Qed.

Lemma login_status_valid (creds : list Credential) (req : Req) :
  status (login creds req) = 200 ↔
  isValidUser creds (get (body req) "username") (get (body req) "password")
  = true.
Proof. unfold login. by destruct (isValidUser _ _ _). Qed.

Lemma registerAll_snoc (creds : list Credential) (reqs : list Req) (req : Req) :
  registerAll creds (reqs ++ [req])
  = (register (registerAll creds reqs) req).1.
Proof. unfold registerAll. by rewrite foldl_app. Qed.

Lemma register_response (creds : list Credential) (req : Req) :
  (register creds req).2
  = if isUsernameTaken creds (get (body req) "username") then
      {| status := 409;
         json := JObj [("error", JStr "Username already taken")] |}
    else
      {| status := 201;
         json := JObj [("message", JStr "User registered successfully")] |}.
Proof. unfold register. by destruct (isUsernameTaken creds _). Qed.

Lemma login_survives_register (creds : list Credential) (r req : Req) :
  status (login creds req) = 200 →
  login (register creds r).1 req = login creds req.
Proof.
  intros Hok%login_status_valid. apply login_decided.
  by rewrite isValidUser_register, Hok.
Qed.

(** X1.  [register] never removes or rewrites a credential: the list it
    leaves starts with the list it found, and is longer by one exactly
    when it answers 201. *)
Theorem register_keeps_credentials (creds : list Credential) (req : Req) :
  take (length creds) (register creds req).1 = creds ∧
  length (register creds req).1
  = (length creds
     + (if bool_decide (status (register creds req).2 = 201%Z) then 1 else 0))%nat.
Proof.
  unfold register. destruct (isUsernameTaken creds _); simpl.
  - split; [apply firstn_all | lia].
  - split; [by rewrite take_app_length | rewrite length_app; simpl; lia].
Qed.

(** X2.  A login that succeeds keeps succeeding, with the same response,
    whatever registration requests are handled in between. *)
Theorem login_survives_registrations
    (creds : list Credential) (reqs : list Req) (req : Req) :
  status (login creds req) = 200 →
  login (registerAll creds reqs) req = login creds req.
Proof.
  revert creds. induction reqs as [|r reqs IH]; intros creds Hok; [done|].
  change (registerAll creds (r :: reqs))
    with (registerAll (register creds r).1 reqs).
  pose proof (login_survives_register creds r req Hok) as Hstep.
  rewrite IH; [done|]. by rewrite Hstep.
Qed.

Lemma login_survives_registrations_witness :
  let req := credentialsRequest (JStr "user2") (JStr "password2@") in
  let reqs := [ credentialsRequest (JStr "testuser") (JStr "testpassword123@");
                credentialsRequest (JStr "user2") (JStr "stolen");
                {| body := [] |} ] in
  status (login validCredentials req) = 200 ∧
  login (registerAll validCredentials reqs) req = login validCredentials req.
Proof.
  intros req reqs. split; [reflexivity|].
  apply (login_survives_registrations validCredentials reqs req). reflexivity.
Defined.

(** X3.  A registration lets in nothing but the pair it registered: when
    a login is refused before a [register] call and accepted after it,
    that call answered 201 and its username and password are [===] to
    those of the login. *)
Theorem register_admits_only_its_pair (creds : list Credential) (r req : Req) :
  status (login creds req) = 401 →
  status (login (register creds r).1 req) = 200 →
  status (register creds r).2 = 201 ∧
  strict_eq (get (body r) "username") (get (body req) "username") = true ∧
  strict_eq (get (body r) "password") (get (body req) "password") = true.
Proof.
  intros Hno Hyes%login_status_valid.
  assert (Hbefore : isValidUser creds (get (body req) "username")
                      (get (body req) "password") = false).
  { destruct (isValidUser creds _ _) eqn:Hv; [|done].
    apply login_status_valid in Hv. rewrite Hv in Hno. done. }
  rewrite isValidUser_register, Hbefore in Hyes. simpl in Hyes.
  apply andb_true_iff in Hyes as [[Hfree Hu]%andb_true_iff Hp].
  rewrite register_response.
  apply negb_true_iff in Hfree. by rewrite Hfree.
Qed.

Lemma register_admits_only_its_pair_witness :
  let r := credentialsRequest (JStr "testuser") (JStr "testpassword123@") in
  let req := credentialsRequest (JStr "testuser") (JStr "testpassword123@") in
  status (login validCredentials req) = 401 ∧
  status (login (register validCredentials r).1 req) = 200 ∧
  status (register validCredentials r).2 = 201 ∧
  strict_eq (get (body r) "username") (get (body req) "username") = true ∧
  strict_eq (get (body r) "password") (get (body req) "password") = true.
Proof.
  intros r req. split; [reflexivity|]. split; [reflexivity|].
  apply (register_admits_only_its_pair validCredentials r req); reflexivity.
Defined.

(** X4.  After a username was registered with one password, a login
    with that username and any other password is refused with 401. *)
Theorem register_then_wrong_password
    (creds : list Credential) (u p p' : string) :
  isUsernameTaken creds (JStr u) = false →
  p ≠ p' →
  login (register creds (credentialsRequest (JStr u) (JStr p))).1
    (credentialsRequest (JStr u) (JStr p'))
  = {| status := 401;
       json := JObj [("error", JStr "Invalid username or password")] |}.
Proof.
  intros Hfree Hne. apply login_rejects.
  rewrite isValidUser_register.
  cbn [credentialsRequest body get String.eqb Ascii.eqb Bool.eqb].
  rewrite (isValidUser_free _ _ _ Hfree).
  assert (Hp : strict_eq (JStr p) (JStr p') = false).
  { destruct (strict_eq (JStr p) (JStr p')) eqn:H; [|done].
    by apply strict_eq_JStr in H. }
  rewrite Hp. by rewrite andb_false_r.
Qed.

Lemma register_then_wrong_password_witness :
  isUsernameTaken validCredentials (JStr "testuser") = false ∧
  "testpassword123@" ≠ "wrongpassword" ∧
  login (register validCredentials
           (credentialsRequest (JStr "testuser") (JStr "testpassword123@"))).1
    (credentialsRequest (JStr "testuser") (JStr "wrongpassword"))
  = {| status := 401;
       json := JObj [("error", JStr "Invalid username or password")] |}.
Proof.
  assert (Hne : "testpassword123@" ≠ "wrongpassword") by discriminate.
  split; [reflexivity|]. split; [exact Hne|].
  apply (register_then_wrong_password validCredentials "testuser"
           "testpassword123@" "wrongpassword"); [reflexivity | exact Hne].
Defined.

Lemma distinctUsernames_snoc (creds : list Credential) (c : Credential) :
  distinctUsernames (creds ++ [c])
  = distinctUsernames creds && negb (isUsernameTaken creds (username c)).
Proof.
  induction creds as [|h creds IH]; simpl; [done|].
  rewrite IH, isUsernameTaken_app. simpl.
  rewrite orb_false_r, (strict_eq_sym (username c) (username h)).
  destruct (isUsernameTaken creds (username h)),
           (strict_eq (username h) (username c)),
           (distinctUsernames creds),
           (isUsernameTaken creds (username c)); done.
Qed.

Lemma register_distinct (creds : list Credential) (req : Req) :
  distinctUsernames creds = true →
  distinctUsernames (register creds req).1 = true.
Proof.
  intros Hd. unfold register.
  destruct (isUsernameTaken creds _) eqn:Ht; simpl; [done|].
  rewrite distinctUsernames_snoc. simpl. by rewrite Hd, Ht.
Qed.

Lemma registerAll_distinct (creds : list Credential) (reqs : list Req) :
  distinctUsernames creds = true →
  distinctUsernames (registerAll creds reqs) = true.
Proof.
  revert creds. induction reqs as [|r reqs IH]; intros creds Hd; [done|].
  apply (IH (register creds r).1). by apply register_distinct.
Qed.

Lemma distinct_one_password (creds : list Credential) (u p p' : jsval) :
  distinctUsernames creds = true →
  isValidUser creds u p = true →
  isValidUser creds u p' = true →
  strict_eq p p' = true.
Proof.
  induction creds as [|c creds IH]; simpl; [done|].
  intros [Hfresh Hd]%andb_true_iff Hp Hp'.
  apply negb_true_iff in Hfresh.
  assert (Htail : ∀ q, strict_eq (username c) u = true →
                       isValidUser creds u q = true → False).
  { intros q Hu Hq%isValidUser_taken.
    rewrite (isUsernameTaken_compat creds _ _ Hu) in Hfresh. congruence. }
  apply orb_true_iff in Hp as [[Hu Hcp]%andb_true_iff | Hp];
    apply orb_true_iff in Hp' as [[Hu' Hcp']%andb_true_iff | Hp'].
  - rewrite strict_eq_sym in Hcp. by apply (strict_eq_trans p (password c) p').
  - destruct (Htail p' Hu Hp').
  - destruct (Htail p Hu' Hp).
  - by apply IH.
Qed.

(** X5.  Registrations keep the usernames on the list pairwise distinct
    (no two [===]): a list without duplicates has none after any run of
    registration requests. *)
Theorem registrations_keep_usernames_distinct
    (creds : list Credential) (reqs : list Req) :
  distinctUsernames creds = true →
  distinctUsernames (registerAll creds reqs) = true.
Proof. apply registerAll_distinct. Qed.

Lemma registrations_keep_usernames_distinct_witness :
  let reqs := [ credentialsRequest (JStr "testuser") (JStr "testpassword123@");
                credentialsRequest (JStr "testuser") (JStr "another");
                credentialsRequest (JStr "user2") (JStr "stolen") ] in
  distinctUsernames validCredentials = true ∧
  distinctUsernames (registerAll validCredentials reqs) = true.
Proof.
  intros reqs. split; [reflexivity|].
  apply (registrations_keep_usernames_distinct validCredentials reqs).
  reflexivity.
Defined.

(** X6.  Whatever was registered since the server started, a username
    logs in with one password only: two passwords the list accepts for
    the same username are [===]. *)
Theorem reachable_one_password_per_username
    (reqs : list Req) (u p p' : jsval) :
  isValidUser (registerAll validCredentials reqs) u p = true →
  isValidUser (registerAll validCredentials reqs) u p' = true →
  strict_eq p p' = true.
Proof.
  apply distinct_one_password. by apply registerAll_distinct.
Qed.

Lemma reachable_one_password_per_username_witness :
  let reqs := [ credentialsRequest (JStr "user2") (JStr "stolen") ] in
  isValidUser (registerAll validCredentials reqs)
    (JStr "user2") (JStr "password2@") = true ∧
  strict_eq (JStr "password2@") (JStr "password2@") = true.
Proof.
  intros reqs.
  assert (H : isValidUser (registerAll validCredentials reqs)
                (JStr "user2") (JStr "password2@") = true) by reflexivity.
  split; [exact H|].
  exact (reachable_one_password_per_username reqs (JStr "user2")
           (JStr "password2@") (JStr "password2@") H H).
Defined.

(** X7.  Two registrations for usernames that are not [===] do not
    interfere: each gets the response it would get alone, and every
    login is answered the same whichever of the two was handled first. *)
Theorem register_order_irrelevant (creds : list Credential) (r1 r2 : Req) :
  strict_eq (get (body r1) "username") (get (body r2) "username") = false →
  (register (register creds r1).1 r2).2 = (register creds r2).2 ∧
  (register (register creds r2).1 r1).2 = (register creds r1).2 ∧
  ∀ req : Req,
    login (register (register creds r1).1 r2).1 req
    = login (register (register creds r2).1 r1).1 req.
Proof.
  intros H12. pose proof H12 as H21. rewrite strict_eq_sym in H21.
  split; [|split].
  - rewrite !register_response, isUsernameTaken_register, H12.
    by rewrite andb_false_r, orb_false_r.
  - rewrite !register_response, isUsernameTaken_register, H21.
    by rewrite andb_false_r, orb_false_r.
  - intros req. apply login_decided.
    rewrite !isValidUser_register, !isUsernameTaken_register, H12, H21.
    rewrite !andb_false_r, !orb_false_r.
    destruct (isValidUser creds _ _),
             (isUsernameTaken creds (get (body r1) "username")),
             (isUsernameTaken creds (get (body r2) "username")),
             (strict_eq (get (body r1) "username") (get (body req) "username")),
             (strict_eq (get (body r2) "username") (get (body req) "username")),
             (strict_eq (get (body r1) "password") (get (body req) "password")),
             (strict_eq (get (body r2) "password") (get (body req) "password"));
      done.
Qed.

Lemma register_order_irrelevant_witness :
  let r1 := credentialsRequest (JStr "testuser") (JStr "testpassword123@") in
  let r2 := credentialsRequest (JStr "user2") (JStr "stolen") in
  strict_eq (get (body r1) "username") (get (body r2) "username") = false ∧
  (register (register validCredentials r1).1 r2).2
  = (register validCredentials r2).2 ∧
  (register (register validCredentials r2).1 r1).2
  = (register validCredentials r1).2 ∧
  ∀ req : Req,
    login (register (register validCredentials r1).1 r2).1 req
    = login (register (register validCredentials r2).1 r1).1 req.
Proof.
  intros r1 r2. split; [reflexivity|].
  apply (register_order_irrelevant validCredentials r1 r2). reflexivity.
Defined.

Lemma registerAll_taken (creds : list Credential) (reqs : list Req) (u : jsval) :
  isUsernameTaken creds u = true →
  isUsernameTaken (registerAll creds reqs) u = true.
Proof.
  revert creds. induction reqs as [|r reqs IH]; intros creds Ht; [done|].
  apply (IH (register creds r).1).
  by rewrite isUsernameTaken_register, Ht.
Qed.

(** X14.  A username, once on the list, is never free again: after any
    run of further registration requests, a registration for it is
    still answered 409 and changes nothing. *)
Theorem taken_username_stays_taken
    (creds : list Credential) (reqs : list Req) (req : Req) :
  isUsernameTaken creds (get (body req) "username") = true →
  register (registerAll creds reqs) req
  = (registerAll creds reqs,
     {| status := 409;
        json := JObj [("error", JStr "Username already taken")] |}).
Proof.
  intros Ht. apply register_taken. by apply registerAll_taken.
Qed.

Lemma taken_username_stays_taken_witness :
  let reqs := [ credentialsRequest (JStr "testuser") (JStr "testpassword123@");
                {| body := [] |} ] in
  let req := credentialsRequest (JStr "user2") (JStr "stolen") in
  isUsernameTaken validCredentials (get (body req) "username") = true ∧
  register (registerAll validCredentials reqs) req
  = (registerAll validCredentials reqs,
     {| status := 409;
        json := JObj [("error", JStr "Username already taken")] |}).
Proof.
  intros reqs req. split; [reflexivity|].
  apply (taken_username_stays_taken validCredentials reqs req). reflexivity.
Defined.

(** X15.  Whoever can log in cannot be registered over: when a login is
    accepted, a registration for a [===] username, with whatever
    password, is answered 409 and leaves the list as it is. *)
Theorem logged_in_username_is_taken (creds : list Credential) (req r : Req) :
  status (login creds req) = 200 →
  strict_eq (get (body req) "username") (get (body r) "username") = true →
  register creds r
  = (creds, {| status := 409;
               json := JObj [("error", JStr "Username already taken")] |}).
Proof.
  intros Hok%login_status_valid%isValidUser_taken Hsame.
  apply register_taken.
  by rewrite <- (isUsernameTaken_compat creds _ _ Hsame).
Qed.

Lemma logged_in_username_is_taken_witness :
  let req := credentialsRequest (JStr "user2") (JStr "password2@") in
  let r := credentialsRequest (JStr "user2") (JStr "stolen") in
  status (login validCredentials req) = 200 ∧
  strict_eq (get (body req) "username") (get (body r) "username") = true ∧
  register validCredentials r
  = (validCredentials,
     {| status := 409;
        json := JObj [("error", JStr "Username already taken")] |}).
Proof.
  intros req r. split; [reflexivity|]. split; [reflexivity|].
  apply (logged_in_username_is_taken validCredentials req r); reflexivity.
Defined.

End CredentialListProperties.

(* ===================================================================== *)
(** * The validators, alone and in front of the controllers *)
(* ===================================================================== *)

Section ValidatorProperties.

Import AuthController CredentialList Validation.

Lemma truthy_missing (o : object) (k : string) :
  has o k = false → truthy (get o k) = false.
Proof. intros H. by rewrite (get_missing o k H). Qed.

Lemma validateLogin_cases (req : Req) :
  validateLogin req
  = if truthy (get (body req) "username") && truthy (get (body req) "password")
    then Next
    else badRequest "Username and password are required".
Proof.
  unfold validateLogin.
  by destruct (truthy (get (body req) "username")),
              (truthy (get (body req) "password")).
Qed.

Lemma validateRegistration_cases (req : Req) :
  validateRegistration req
  = if truthy (get (body req) "username") && truthy (get (body req) "password")
    then Next
    else badRequest "Username and password are required".
Proof.
  unfold validateRegistration.
  by destruct (truthy (get (body req) "username")),
              (truthy (get (body req) "password")).
Qed.

Lemma validateProfileUpdate_cases (req : Req) :
  validateProfileUpdate req
  = if forallb (λ k, truthy (get (body req) k))
         ["fullName"; "address1"; "city"; "state"; "zipcode"]
    then Next
    else badRequest
           "Full name, address, city, state, and zipcode are required".
Proof.
  unfold validateProfileUpdate. simpl.
  by destruct (truthy (get (body req) "fullName")),
              (truthy (get (body req) "address1")),
              (truthy (get (body req) "city")),
              (truthy (get (body req) "state")),
              (truthy (get (body req) "zipcode")).
Qed.

(** Whoever the list lets in has credentials [===] to an entry's. *)
Lemma isValidUser_truthy (creds : list Credential) (u p : jsval) :
  allTruthy creds = true →
  isValidUser creds u p = true →
  truthy u = true ∧ truthy p = true.
Proof.
  induction creds as [|c creds IH]; simpl; [done|].
  intros [[Hu Hp]%andb_true_iff Hall]%andb_true_iff
         [[Heu Hep]%andb_true_iff | Hv]%orb_true_iff.
  - by rewrite <- (strict_eq_truthy _ _ Heu), <- (strict_eq_truthy _ _ Hep).
  - by apply IH.
Qed.

Lemma register_allTruthy (creds : list Credential) (req : Req) :
  validateRegistration req = Next →
  allTruthy creds = true →
  allTruthy (register creds req).1 = true.
Proof.
  rewrite validateRegistration_cases.
  destruct (truthy (get (body req) "username")) eqn:Hu,
           (truthy (get (body req) "password")) eqn:Hp; try done.
  intros _ Hall. unfold register.
  destruct (isUsernameTaken creds _); simpl; [done|].
  unfold allTruthy. rewrite forallb_app. simpl.
  fold (allTruthy creds). by rewrite Hall, Hu, Hp.
Qed.

Lemma registerAll_allTruthy (creds : list Credential) (reqs : list Req) :
  Forall (λ r, validateRegistration r = Next) reqs →
  allTruthy creds = true →
  allTruthy (registerAll creds reqs) = true.
Proof.
  intros Hreqs. revert creds.
  induction Hreqs as [|r reqs Hr _ IH]; intros creds Hall; [done|].
  apply (IH (register creds r).1). by apply register_allTruthy.
Qed.

(** X8.  The controllers do not check that the fields are there.  On a
    list without an [undefined] username, a registration whose body has
    neither [username] nor [password] answers 201 and stores an entry of
    two [undefined]s; a login whose body has neither is then accepted
    with 200 and a token.  [validateRegistration] and [validateLogin]
    answer 400 to these same requests. *)
Theorem register_and_login_without_fields
    (creds : list Credential) (req req' : Req) :
  isUsernameTaken creds JUndefined = false →
  has (body req) "username" = false →
  has (body req) "password" = false →
  has (body req') "username" = false →
  has (body req') "password" = false →
  register creds req
  = (creds ++ [ {| username := JUndefined; password := JUndefined |} ],
     {| status := 201;
        json := JObj [("message", JStr "User registered successfully")] |}) ∧
  login (register creds req).1 req'
  = {| status := 200; json := JObj [("token", JStr "exampleToken")] |} ∧
  validateRegistration req
  = badRequest "Username and password are required" ∧
  validateLogin req' = badRequest "Username and password are required".
Proof.
  intros Hfree Hu%get_missing Hp%get_missing Hu'%get_missing Hp'%get_missing.
  assert (Hreg : register creds req
                 = (creds ++ [ {| username := JUndefined;
                                  password := JUndefined |} ],
                    {| status := 201;
                       json := JObj [("message",
                                      JStr "User registered successfully")] |})).
  { rewrite register_free; rewrite Hu; [by rewrite Hp | done]. }
  split; [done|]. split; [|split].
  - apply login_accepts. rewrite Hreg, Hu', Hp'. cbn [fst].
    rewrite isValidUser_app. simpl. apply orb_true_r.
  - by rewrite validateRegistration_cases, Hu.
  - by rewrite validateLogin_cases, Hu'.
Qed.

Lemma register_and_login_without_fields_witness :
  let req := {| body := [] |} in
  let req' := {| body := [("remember", JBool true)] |} in
  isUsernameTaken validCredentials JUndefined = false ∧
  has (body req) "username" = false ∧
  has (body req) "password" = false ∧
  has (body req') "username" = false ∧
  has (body req') "password" = false ∧
  register validCredentials req
  = (validCredentials
       ++ [ {| username := JUndefined; password := JUndefined |} ],
     {| status := 201;
        json := JObj [("message", JStr "User registered successfully")] |}) ∧
  login (register validCredentials req).1 req'
  = {| status := 200; json := JObj [("token", JStr "exampleToken")] |} ∧
  validateRegistration req
  = badRequest "Username and password are required" ∧
  validateLogin req' = badRequest "Username and password are required".
Proof.
  intros req req'. repeat (split; [reflexivity|]).
  apply (register_and_login_without_fields validCredentials req req');
    reflexivity.
Defined.

(** X9.  A password that is an array or an object passes
    [validateRegistration] (it is truthy) and is registered with 201,
    but it can never be presented again: every later login for that
    username is refused with 401, whatever password it carries. *)
Theorem register_object_password_locks_account
    (creds : list Credential) (req : Req) :
  truthy (get (body req) "username") = true →
  isUsernameTaken creds (get (body req) "username") = false →
  primitive (get (body req) "password") = false →
  validateRegistration req = Next ∧
  status (register creds req).2 = 201 ∧
  ∀ req' : Req,
    strict_eq (get (body req) "username") (get (body req') "username") = true →
    login (register creds req).1 req'
    = {| status := 401;
         json := JObj [("error", JStr "Invalid username or password")] |}.
Proof.
  intros Hu Hfree Hobj. split; [|split].
  - rewrite validateRegistration_cases, Hu.
    by destruct (get (body req) "password").
  - by rewrite register_response, Hfree.
  - intros req' Hsame. apply login_rejects.
    rewrite isValidUser_register, Hfree.
    rewrite (strict_eq_not_primitive _ _ Hobj), andb_false_r, orb_false_r.
    apply isValidUser_free.
    by rewrite <- (isUsernameTaken_compat creds _ _ Hsame).
Qed.

Lemma register_object_password_locks_account_witness :
  let req := credentialsRequest (JStr "testuser")
               (JObj [("value", JStr "testpassword123@")]) in
  truthy (get (body req) "username") = true ∧
  isUsernameTaken validCredentials (get (body req) "username") = false ∧
  primitive (get (body req) "password") = false ∧
  validateRegistration req = Next ∧
  status (register validCredentials req).2 = 201 ∧
  ∀ req' : Req,
    strict_eq (get (body req) "username") (get (body req') "username") = true →
    login (register validCredentials req).1 req'
    = {| status := 401;
         json := JObj [("error", JStr "Invalid username or password")] |}.
Proof.
  intros req. repeat (split; [reflexivity|]).
  apply (register_object_password_locks_account validCredentials req);
    reflexivity.
Defined.

(** X10.  Each validator answers 400, with its own message, to a body
    that lacks one of the keys it requires. *)
Theorem validators_reject_missing_key (req : Req) (k : string) :
  has (body req) k = false →
  (k ∈ ["username"; "password"] →
     validateLogin req = badRequest "Username and password are required" ∧
     validateRegistration req
     = badRequest "Username and password are required") ∧
  (k ∈ ["fullName"; "address1"; "city"; "state"; "zipcode"] →
     validateProfileUpdate req
     = badRequest
         "Full name, address, city, state, and zipcode are required") ∧
  (k ∈ ["gallonsRequested"; "deliveryDate"] →
     validateFuelQuote req
     = badRequest "Gallons requested and delivery date are required").
Proof.
  intros Hk%truthy_missing. split; [|split]; intros Hin.
  - rewrite validateLogin_cases, validateRegistration_cases.
    repeat (apply elem_of_cons in Hin as [-> | Hin];
            [rewrite Hk; by rewrite ?andb_false_r|]).
    by apply elem_of_nil in Hin.
  - rewrite validateProfileUpdate_cases.
    assert (Hall : forallb (λ k, truthy (get (body req) k))
                     ["fullName"; "address1"; "city"; "state"; "zipcode"]
                   = false); [|by rewrite Hall].
    apply not_true_is_false. intros Hall.
    rewrite forallb_forall in Hall.
    apply list_elem_of_In, Hall in Hin. congruence.
  - rewrite validateFuelQuote_cases.
    repeat (apply elem_of_cons in Hin as [-> | Hin];
            [rewrite Hk; by rewrite ?andb_false_r|]).
    by apply elem_of_nil in Hin.
Qed.

Lemma validators_reject_missing_key_witness :
  let req := {| body := [("username", JStr "testuser");
                         ("fullName", JStr "John Doe");
                         ("address1", JStr "123 Main St");
                         ("city", JStr "Anytown");
                         ("state", JStr "CA")] |} in
  has (body req) "zipcode" = false ∧
  "zipcode" ∈ ["fullName"; "address1"; "city"; "state"; "zipcode"] ∧
  validateProfileUpdate req
  = badRequest "Full name, address, city, state, and zipcode are required".
Proof.
  intros req.
  assert (Hin : "zipcode" ∈ ["fullName"; "address1"; "city"; "state"; "zipcode"])
    by (apply list_elem_of_In; simpl; tauto).
  split; [reflexivity|]. split; [exact Hin|].
  exact (proj1 (proj2 (validators_reject_missing_key req "zipcode" eq_refl))
           Hin).
Defined.

(** X11.  [validateProfileUpdate] calls [next()] exactly when
    [fullName], [address1], [city], [state] and [zipcode] are all
    truthy, and no other field matters: two bodies that agree on these
    five get the same answer, so [address2] and [username] are never
    required. *)
Theorem validateProfileUpdate_five_fields (req req' : Req) :
  let required := ["fullName"; "address1"; "city"; "state"; "zipcode"] in
  (validateProfileUpdate req = Next ↔
     ∀ k, k ∈ required → truthy (get (body req) k) = true) ∧
  ((∀ k, k ∈ required → get (body req) k = get (body req') k) →
     validateProfileUpdate req = validateProfileUpdate req').
Proof.
  intros required. split.
  - rewrite validateProfileUpdate_cases. fold required.
    destruct (forallb _ required) eqn:Hall.
    + split; [|done]. intros _ k Hk%list_elem_of_In.
      rewrite forallb_forall in Hall. by apply Hall.
    + split; [done|]. intros Hreq.
      assert (forallb (λ k, truthy (get (body req) k)) required = true);
        [|congruence].
      apply forallb_forall. intros k Hk%list_elem_of_In. by apply Hreq.
  - intros Hagree. unfold validateProfileUpdate.
    rewrite !(Hagree _); [done|..]; apply list_elem_of_In; simpl; tauto.
Qed.

Lemma validateProfileUpdate_five_fields_witness :
  let required := ["fullName"; "address1"; "city"; "state"; "zipcode"] in
  let req := {| body := [("fullName", JStr "John Doe");
                         ("address1", JStr "123 Main St");
                         ("city", JStr "Anytown");
                         ("state", JStr "CA");
                         ("zipcode", JStr "12345")] |} in
  let req' := {| body := [("username", JStr "testuser");
                          ("fullName", JStr "John Doe");
                          ("address1", JStr "123 Main St");
                          ("address2", JStr "Apt 101");
                          ("city", JStr "Anytown");
                          ("state", JStr "CA");
                          ("zipcode", JStr "12345")] |} in
  (∀ k, k ∈ required → get (body req) k = get (body req') k) ∧
  validateProfileUpdate req = validateProfileUpdate req'.
Proof.
  intros required req req'.
  assert (Hagree : ∀ k, k ∈ required → get (body req) k = get (body req') k).
  { intros k Hin. subst required.
    repeat (apply elem_of_cons in Hin as [-> | Hin]; [reflexivity|]).
    by apply elem_of_nil in Hin. }
  split; [exact Hagree|].
  exact (proj2 (validateProfileUpdate_five_fields req req') Hagree).
Defined.

(** X12.  When every stored username and password is truthy,
    [validateLogin] stands in the way of no login that [login] would
    accept: a request answered 200 passes the validator. *)
Theorem validateLogin_passes_valid_logins
    (creds : list Credential) (req : Req) :
  allTruthy creds = true →
  status (login creds req) = 200 →
  validateLogin req = Next.
Proof.
  intros Hall Hok%login_status_valid.
  destruct (isValidUser_truthy creds _ _ Hall Hok) as [Hu Hp].
  by rewrite validateLogin_cases, Hu, Hp.
Qed.

Lemma validateLogin_passes_valid_logins_witness :
  let req := credentialsRequest (JStr "user_name123") (JStr "Password123!") in
  allTruthy validCredentials = true ∧
  status (login validCredentials req) = 200 ∧
  validateLogin req = Next.
Proof.
  intros req. split; [reflexivity|]. split; [reflexivity|].
  apply (validateLogin_passes_valid_logins validCredentials req); reflexivity.
Defined.

(** X13.  Registrations that passed [validateRegistration] store only
    truthy usernames and passwords.  So, starting from the hardcoded
    list, after any run of such registrations every login that [login]
    accepts also passes [validateLogin]. *)
Theorem validated_registrations_keep_logins_valid
    (reqs : list Req) (req : Req) :
  Forall (λ r, validateRegistration r = Next) reqs →
  allTruthy (registerAll validCredentials reqs) = true ∧
  (status (login (registerAll validCredentials reqs) req) = 200 →
   validateLogin req = Next).
Proof.
  intros Hreqs.
  assert (Hall : allTruthy (registerAll validCredentials reqs) = true)
    by (by apply registerAll_allTruthy).
  split; [done|]. intros Hok%login_status_valid.
  destruct (isValidUser_truthy _ _ _ Hall Hok) as [Hu Hp].
  by rewrite validateLogin_cases, Hu, Hp.
Qed.

Lemma validated_registrations_keep_logins_valid_witness :
  let reqs := [ credentialsRequest (JStr "testuser") (JStr "testpassword123@");
                credentialsRequest (JNum 7) (JBool true) ] in
  let req := credentialsRequest (JNum 7) (JBool true) in
  Forall (λ r, validateRegistration r = Next) reqs ∧
  allTruthy (registerAll validCredentials reqs) = true ∧
  status (login (registerAll validCredentials reqs) req) = 200 ∧
  validateLogin req = Next.
Proof.
  intros reqs req.
  assert (Hreqs : Forall (λ r, validateRegistration r = Next) reqs)
    by (repeat constructor).
  assert (Hok : status (login (registerAll validCredentials reqs) req) = 200)
    by reflexivity.
  destruct (validated_registrations_keep_logins_valid reqs req Hreqs)
    as [Hall Hpass].
  split; [exact Hreqs|]. split; [exact Hall|]. split; [exact Hok|].
  exact (Hpass Hok).
Defined.

End ValidatorProperties.
